(** * pico-mfrc522: register transactions, digital self test and UID check

    A shallow embedding of [pico_MFRC522.c] (module [MFRC522]) and of the
    authorisation test of [example.c] (module [Example]).

    Bytes are integers of [Z] with the reduction modulo 2^8 written out by
    [u8] wherever the C code stores into a [uint8_t].  Everything the
    firmware does to the outside (GPIO, SPI, delays, console) is recorded,
    in program order, in the [trace] of a [world]; the bytes the reader
    chip shifts out on MISO are given by a stream [miso], one entry per
    byte clocked in by [spi_read_blocking].  The SPI instance is [spi0] in
    every call and is left out of the events.  The only loops without a
    bound, the completion poll of [self_test] and the closing loop of
    [main], run for at most [fuel] iterations and report [Spinning] when
    they are still inside the loop at that point. *)

From Stdlib Require Import ZArith Lia String.
From stdpp Require Import base numbers list.

Open Scope Z_scope.

Module MFRC522.

(** ** Machine integers *)

(** Conversion to [uint8_t]. *)
Definition u8 (z : Z) : Z := z mod 256.

(** ** Static data *)

Definition LED_PIN : Z := 25.
Definition RESET_PIN : Z := 20.

(** [const uint8_t PROGMEM[]]: the FIFO contents after a self test of a
    version 2.0 chip. *)
Definition PROGMEM : list Z :=
  [ 0x00; 0xEB; 0x66; 0xBA; 0x57; 0xBF; 0x23; 0x95;
    0xD0; 0xE3; 0x0D; 0x3D; 0x27; 0x89; 0x5C; 0xDE;
    0x9D; 0x3B; 0xA7; 0x00; 0x21; 0x5B; 0x89; 0x82;
    0x51; 0x3A; 0xEB; 0x02; 0x0C; 0xA5; 0x00; 0x49;
    0x7C; 0x84; 0x4D; 0xB3; 0xCC; 0xD2; 0x1B; 0x81;
    0x5D; 0x48; 0x76; 0xD5; 0x71; 0x61; 0x21; 0xA9;
    0x86; 0x96; 0x83; 0x38; 0xCF; 0x9D; 0x5B; 0x6D;
    0xDC; 0x15; 0xBA; 0x3E; 0x7D; 0x95; 0x3B; 0x2F ].

(** Every register constant is written [addr << 1] and held in a
    [uint8_t]: the least significant bit of the address byte is unused. *)
Definition shifted (addr : Z) : Z := u8 (Z.shiftl addr 1).

Definition CommandReg : Z := shifted 0x01.
Definition FIFODataReg : Z := shifted 0x09.
Definition FIFOLevelReg : Z := shifted 0x0A.
Definition AutoTestReg : Z := shifted 0x36.
Definition VersionReg : Z := shifted 0x37.

Definition SoftReset : Z := 0x0F.
Definition Mem : Z := 0x01.
Definition EnableSelfTest : Z := 0x09.
Definition CalcCRC : Z := 0x03.

(** ** The outside world *)

Inductive gpio_function := GPIO_FUNC_SPI.

Inductive event :=
| Nop3                                   (* asm volatile("nop \n nop \n nop") *)
| GpioInit (pin : Z)
| GpioSetDir (pin : Z) (out : bool)
| GpioPut (pin : Z) (value : bool)
| GpioSetFunction (pin : Z) (fn : gpio_function)
| StdioInitAll
| SpiInit (baudrate : Z)
| SpiSetFormat (data_bits cpol cpha : Z) (msb_first : bool)
| SpiWrite (src : list Z)                (* bytes driven on MOSI *)
| SpiRead (tx : Z) (dst : list Z)        (* byte repeated on MOSI, bytes received *)
| SleepMs (ms : Z)
| Printf (fmt : string) (args : list Z).

Record world := World {
  trace : list event;   (* everything done so far, oldest first *)
  rx_count : nat        (* bytes clocked in by spi_read_blocking so far *)
}.

Definition boot : world := World [] 0.

Definition emit (e : event) (w : world) : world :=
  World (trace w ++ [e]) (rx_count w).

(** What a call that may spin in a loop has done when the iteration
    budget is used up: it has returned, or it is still inside the loop. *)
Inductive outcome (A : Type) :=
| Returned (a : A) (w : world)
| Spinning (w : world).
Arguments Returned {A} a w.
Arguments Spinning {A} w.

Definition world_of {A} (o : outcome A) : world :=
  match o with Returned _ w => w | Spinning w => w end.

Definition value_of {A} (o : outcome A) : option A :=
  match o with Returned a _ => Some a | Spinning _ => None end.

(** [for (i = lo; i < lo + n; i++) body] on a state [S]. *)
Fixpoint for_loop {S : Type} (n : nat) (i : nat) (body : nat → S → S) (s : S) : S :=
  match n with
  | O => s
  | Datatypes.S n' => for_loop n' (Datatypes.S i) body (body i s)
  end.

Section Device.

(** [miso k] is what the slave shifts out during the [k]-th byte read of
    the run (counted from zero). *)
Variable miso : nat → Z.

(** *** Platform calls *)

Definition sleep_ms (ms : Z) (w : world) : world := emit (SleepMs ms) w.
Definition printf (fmt : string) (args : list Z) (w : world) : world :=
  emit (Printf fmt args) w.
Definition gpio_put (pin : Z) (value : bool) (w : world) : world :=
  emit (GpioPut pin value) w.
Definition nops (w : world) : world := emit Nop3 w.

Definition spi_write_blocking (src : list Z) (w : world) : world :=
  emit (SpiWrite src) w.

(** Reads [len] bytes into a [uint8_t] buffer while [tx] is repeated on
    the output line. *)
Definition spi_read_blocking (tx : Z) (len : nat) (w : world)
  : list Z * world :=
  let dst := (λ k, u8 (miso k)) <$> seq (rx_count w) len in
  (dst, World (trace w ++ [SpiRead tx dst]) (rx_count w + len)%nat).

(** *** Chip select *)

Definition cs_select (cs : Z) (w : world) : world :=
  let w := nops w in
  let w := gpio_put cs false w in (* Active low *)
  nops w.

Definition cs_deselect (cs : Z) (w : world) : world :=
  let w := nops w in
  let w := gpio_put cs true w in
  nops w.

(** *** Register access *)

Definition reg_write (cs : Z) (reg data : Z) (w : world) : world :=
  let msg0 := u8 (Z.lor 0x00 reg) in (* MSB = 0 -> write *)
  let msg1 := u8 data in
  let w := cs_select cs w in
  let w := spi_write_blocking [msg0; msg1] w in
  cs_deselect cs w.

(** [buf] is the value [*buf] holds when the call is made; the first
    component of the result is the value it holds afterwards. *)
Definition reg_read (cs : Z) (reg : Z) (buf : Z) (w : world) : Z * world :=
  let msg := u8 (Z.lor 0x80 reg) in (* MSB = 1 -> read *)
  let w := cs_select cs w in
  let w := spi_write_blocking [msg] w in
  let '(dst, w) := spi_read_blocking 0 1 w in
  let w := cs_deselect cs w in
  (nth 0 dst buf, w).

(** *** Self test *)

(** [while (!self_test_complete) { ... }]; [fuel] bounds the number of
    iterations that are run. *)
Fixpoint wait_for_completion (fuel : nat) (cs_pin : Z)
    (self_test_complete : bool) (w : world) : outcome unit :=
  if self_test_complete then Returned tt w
  else
    match fuel with
    | O => Spinning w
    | S fuel' =>
        let '(buf, w) := reg_read cs_pin FIFOLevelReg 0 w in
        let self_test_complete :=
          if 64 <=? buf then true else self_test_complete in
        wait_for_completion fuel' cs_pin self_test_complete w
    end.

(** [for (i = 0; i < 64; i++) { reg_read(FIFODataReg, &buf); result[i] = buf; }] *)
Definition read_result_step (cs_pin : Z) (i : nat) (s : list Z * world)
  : list Z * world :=
  let '(buf, w) := reg_read cs_pin FIFODataReg 0 (snd s) in
  (<[i := buf]> (fst s), w).

(** [printf("%x, ", result[i]); if (i % 10 == 0) printf("\n\r");] *)
Definition print_result_step (result : list Z) (i : nat) (w : world) : world :=
  let w := printf "%x, " [result !!! i] w in
  if (Z.of_nat i mod 10 =? 0) then printf "\n\r" [] w else w.

(** The closing loop: [return -1] at the first position that differs,
    [return 0] when the loop runs to its end; the function returns a
    [uint8_t]. *)
Fixpoint compare_result (n : nat) (i : nat) (result : list Z) : Z :=
  match n with
  | O => u8 0
  | S n' =>
      if decide (result !!! i ≠ PROGMEM !!! i) then u8 (-1)
      else compare_result n' (S i) result
  end.

Definition self_test (fuel : nat) (cs_pin sck_pin mosi_pin miso_pin : Z)
    (w : world) : outcome Z :=
  (* Perform a soft reset *)
  let w := reg_write cs_pin CommandReg SoftReset w in
  let w := sleep_ms 50 w in
  let w := printf "Soft reset complete\n\r" [] w in
  (* Clear the internal buffer *)
  let w := reg_write cs_pin FIFOLevelReg 0x80 w in
  let w := for_loop 25 0 (λ _, reg_write cs_pin FIFODataReg 0x00) w in
  let w := reg_write cs_pin CommandReg Mem w in
  let w := printf "Clearing of internal buffer complete\n\r" [] w in
  (* Enable the self test *)
  let w := reg_write cs_pin AutoTestReg EnableSelfTest w in
  let w := printf "Self test enable complete\n\r" [] w in
  (* 00h goes to the FIFO buffer *)
  let w := reg_write cs_pin FIFODataReg 0x00 w in
  let w := printf "Written 0x00 to FIFO buffer\n\r" [] w in
  (* Start the self test with the CalcCRC command *)
  let w := reg_write cs_pin CommandReg CalcCRC w in
  let w := printf "Started self test with the CRC command\n\r" [] w in
  (* Wait for completion *)
  match wait_for_completion fuel cs_pin false w with
  | Spinning w => Spinning w
  | Returned _ w =>
      let w := printf "Self test completed\n\r" [] w in
      let '(result, w) :=
        for_loop 64 0 (read_result_step cs_pin) (replicate 64 0, w) in
      let w := printf "Bytes copied to result array\n\r" [] w in
      let w := reg_write cs_pin AutoTestReg 0x00 w in (* Disable self-test *)
      let w := printf "Disabled self test\n\r" [] w in
      let w := printf "Self test result:\n\r" [] w in
      let w := for_loop 64 0 (print_result_step result) w in
      let w := printf "\n\r" [] w in
      Returned (compare_result 64 0 result) w
  end.

(** *** main *)

(** Conversion to plain [char], which is unsigned under the ARM EABI the
    Pico SDK compiles for. *)
Definition to_char (z : Z) : Z := u8 z.

(** [main] up to the closing [while (true)]; the value is [test_result]. *)
Definition main_body (fuel : nat) (w : world) : outcome Z :=
  let w := emit (GpioInit LED_PIN) w in
  let w := emit (GpioInit RESET_PIN) w in
  let w := emit (GpioSetDir LED_PIN true) w in
  let w := emit (GpioSetDir RESET_PIN true) w in
  let cs_pin := 17 in
  let sck_pin := 18 in
  let mosi_pin := 19 in
  let miso_pin := 16 in
  let w := emit StdioInitAll w in
  let w := gpio_put RESET_PIN false w in
  let w := sleep_ms 1000 w in
  let w := gpio_put RESET_PIN true w in
  let w := emit (GpioInit cs_pin) w in
  let w := emit (GpioSetDir cs_pin true) w in
  let w := gpio_put cs_pin true w in
  let w := emit (SpiInit 1000000) w in
  let w := emit (SpiSetFormat 8 0 0 true) w in
  let w := emit (GpioSetFunction sck_pin GPIO_FUNC_SPI) w in
  let w := emit (GpioSetFunction mosi_pin GPIO_FUNC_SPI) w in
  let w := emit (GpioSetFunction miso_pin GPIO_FUNC_SPI) w in
  let w := sleep_ms 5000 w in
  let w := printf "Test Started\n\r" [] w in
  let w := reg_write cs_pin CommandReg SoftReset w in
  let w := sleep_ms 50 w in
  let '(version, w) := reg_read cs_pin VersionReg 0x0A w in
  let w := printf "Version: %x\n\r" [version] w in
  match self_test fuel cs_pin sck_pin mosi_pin miso_pin w with
  | Spinning w => Spinning w
  | Returned r w =>
      let test_result := to_char r in
      let w := printf "Test Result: %d\n\r" [test_result] w in
      Returned test_result w
  end.

(** [while (true) { sleep_ms(1000); }] *)
Fixpoint idle (fuel : nat) (w : world) : outcome Z :=
  match fuel with
  | O => Spinning w
  | S fuel' => idle fuel' (sleep_ms 1000 w)
  end.

Definition main (fuel : nat) (w : world) : outcome Z :=
  match main_body fuel w with
  | Spinning w => Spinning w
  | Returned _ w => idle fuel w
  end.

End Device.

End MFRC522.

(** ** What a logic analyser on the bus sees *)

Module Bus.
Import MFRC522.

(** One register transaction as it appears on the wires: the address
    byte, and the data byte written or read. *)
Inductive txn :=
| TxWrite (header data : Z)
| TxRead (header value : Z).

(** The events of one transaction on select line [cs]. *)
Definition frame (cs : Z) (t : txn) : list event :=
  match t with
  | TxWrite header data =>
      [Nop3; GpioPut cs false; Nop3;
       SpiWrite [header; data];
       Nop3; GpioPut cs true; Nop3]
  | TxRead header value =>
      [Nop3; GpioPut cs false; Nop3;
       SpiWrite [header]; SpiRead 0 [value];
       Nop3; GpioPut cs true; Nop3]
  end.

Fixpoint frames (cs : Z) (ts : list txn) : list event :=
  match ts with
  | [] => []
  | t :: ts' => frame cs t ++ frames cs ts'
  end.

(** Console output and millisecond delays are not bus activity. *)
Definition on_bus (e : event) : bool :=
  match e with
  | SleepMs _ | Printf _ _ => false
  | _ => true
  end.

Definition bus_events (t : list event) : list event := List.filter on_bus t.

(** Checks a trace against the select line [cs], [selected] telling
    whether the line is asserted (low) when the trace starts: the line is
    only asserted when released and only released when asserted, bytes
    move only while it is asserted, and the trace ends with it released. *)
Fixpoint cs_discipline (cs : Z) (selected : bool) (t : list event) : bool :=
  match t with
  | [] => negb selected
  | GpioPut pin value :: t' =>
      if decide (pin = cs) then
        (if value then selected else negb selected)
        && cs_discipline cs (negb value) t'
      else cs_discipline cs selected t'
  | SpiWrite _ :: t' | SpiRead _ _ :: t' =>
      selected && cs_discipline cs selected t'
  | _ :: t' => cs_discipline cs selected t'
  end.

(** The transactions of [self_test] before it starts polling. *)
Definition self_test_setup : list txn :=
  [TxWrite CommandReg SoftReset; TxWrite FIFOLevelReg 0x80]
  ++ replicate 25 (TxWrite FIFODataReg 0x00)
  ++ [TxWrite CommandReg Mem; TxWrite AutoTestReg 0x09;
      TxWrite FIFODataReg 0x00; TxWrite CommandReg CalcCRC].

Definition read_header (reg : Z) : Z := Z.lor 0x80 reg.

(** Transfers move bytes over the bus. *)
Definition is_transfer (e : event) : bool :=
  match e with
  | SpiWrite _ | SpiRead _ _ => true
  | _ => false
  end.

(** Whether a transaction reads register [reg]. *)
Definition reads_register (reg : Z) (t : txn) : bool :=
  match t with
  | TxRead header _ => header =? read_header reg
  | TxWrite _ _ => false
  end.

Section Received.
Variable miso : nat → Z.

(** The bytes received by reads number [a], ..., [a + n - 1]. *)
Definition rx (a n : nat) : list Z := (λ k, u8 (miso k)) <$> seq a n.

(** The world after [m] polls of the FIFO level register. *)
Definition after_polls (cs : Z) (w : world) (m : nat) : world :=
  World (trace w
         ++ frames cs (TxRead (read_header FIFOLevelReg) <$> rx (rx_count w) m))
        (rx_count w + m).

(** The transactions of a run of [self_test] that starts with read number
    [a], polls [polls] times and then drains the FIFO. *)
Definition self_test_txns (a polls : nat) : list txn :=
  self_test_setup
  ++ (TxRead (read_header FIFOLevelReg) <$> rx a polls)
  ++ (TxRead (read_header FIFODataReg) <$> rx (a + polls) 64)
  ++ [TxWrite AutoTestReg 0x00].

End Received.

(** *** Console, delays and pins *)







(** The events of a driver that owns select line [cs] and nothing else:
    it moves bytes, waits, prints, and drives no pin but [cs]. *)
Definition drives_only (cs : Z) (e : event) : bool :=
  match e with
  | Nop3 | SpiWrite _ | SpiRead _ _ | SleepMs _ | Printf _ _ => true
  | GpioPut pin _ => pin =? cs
  | _ => false
  end.

(** The levels driven on pins other than [cs]. *)
Definition other_pin_writes (cs : Z) (t : list event) : list event :=
  List.filter (λ e, match e with
                    | GpioPut pin _ => negb (pin =? cs)
                    | _ => false
                    end) t.

(** What [main] does before its first register access. *)
Definition board_setup : list event :=
  [GpioInit LED_PIN; GpioInit RESET_PIN; GpioSetDir LED_PIN true;
   GpioSetDir RESET_PIN true; StdioInitAll; GpioPut RESET_PIN false;
   SleepMs 1000; GpioPut RESET_PIN true; GpioInit 17;
   GpioSetDir 17 true; GpioPut 17 true; SpiInit 1000000;
   SpiSetFormat 8 0 0 true; GpioSetFunction 18 GPIO_FUNC_SPI;
   GpioSetFunction 19 GPIO_FUNC_SPI; GpioSetFunction 16 GPIO_FUNC_SPI;
   SleepMs 5000; Printf "Test Started\n\r" []].

End Bus.

(** ** Simulated devices *)

Module Devices.
Import MFRC522.

(** Answers the first [idle] level polls with [0], the next one with
    [level], and then serves [fifo] byte by byte. *)
Definition chip (idle : nat) (level : Z) (fifo : list Z) (k : nat) : Z :=
  if decide (k < idle)%nat then 0
  else if decide (k = idle) then level
  else fifo !!! (k - idle - 1)%nat.

(** A chip that never reports a full FIFO. *)
Definition dead_chip (k : nat) : Z := 0.

(** The select pin [main] wires the reader to. *)
Definition cs_pin_of_main : Z := 17.

(** The same chips behind the version register read of [main]. *)
Definition versioned (version : Z) (dev : nat → Z) (k : nat) : Z :=
  match k with O => version | S k' => dev k' end.

End Devices.

(** ** example.c: authorisation by UID *)

Module Example.

(** [uint8_t tag1[]], the card that is let in. *)
Definition tag1 : list Z := [0x93; 0xE3; 0x9A; 0x92].

(** [memcmp] of the C library on two byte arrays: the difference of the
    first pair of bytes that differ among the first [n], [0] when there is
    none.  [None] when an array is shorter than [n], where C leaves the
    behaviour undefined. *)
Fixpoint memcmp (s1 s2 : list Z) (n : nat) {struct n} : option Z :=
  match n with
  | O => Some 0
  | S n' =>
      match s1, s2 with
      | a :: s1', b :: s2' =>
          if decide (a = b) then memcmp s1' s2' n' else Some (a - b)
      | _, _ => None
      end
  end.

(** The line [main] prints for the card whose UID buffer is [uidByte]. *)
Definition authorization (uidByte : list Z) : option string :=
  match memcmp uidByte tag1 4 with
  | Some r =>
      if decide (r = 0) then Some "Authentication Success\n\r"%string
      else Some "Authentication Failed\n\r"%string
  | None => None
  end.

End Example.

(** * Properties of the driver *)

Module MFRC522_Spec.
Import MFRC522 Bus Devices.

Lemma u8_small z : 0 ≤ z < 256 → u8 z = z.
Proof. intros H. unfold u8. apply Z.mod_small. exact H. Qed.

Lemma frames_app cs ts1 ts2 :
  frames cs (ts1 ++ ts2) = frames cs ts1 ++ frames cs ts2.
Proof.
  induction ts1 as [|t ts1 IH]; [reflexivity|].
  cbn [frames app]. rewrite IH. apply app_assoc.
Qed.

Lemma bus_events_app t1 t2 :
  bus_events (t1 ++ t2) = bus_events t1 ++ bus_events t2.
Proof. apply List.filter_app. Qed.

Lemma bus_events_frame cs t : bus_events (frame cs t) = frame cs t.
Proof. destruct t; reflexivity. Qed.

Lemma bus_events_frames cs ts : bus_events (frames cs ts) = frames cs ts.
Proof.
  induction ts as [|t ts IH]; [reflexivity|].
  cbn [frames]. rewrite bus_events_app, bus_events_frame, IH. reflexivity.
Qed.

(** *** The select line *)

Lemma cs_discipline_bus cs sel t :
  cs_discipline cs sel (bus_events t) = cs_discipline cs sel t.
Proof.
  revert sel. induction t as [|e t IH]; intros sel; [reflexivity|].
  destruct e; cbn [bus_events List.filter on_bus cs_discipline];
    fold (bus_events t); rewrite ?IH; reflexivity.
Qed.

Lemma cs_discipline_app cs sel t1 t2 :
  cs_discipline cs sel t1 = true →
  cs_discipline cs sel (t1 ++ t2) = cs_discipline cs false t2.
Proof.
  revert sel. induction t1 as [|e t1 IH]; intros sel H.
  - destruct sel; [discriminate H | reflexivity].
  - destruct e; cbn [app cs_discipline] in *; try (apply IH; exact H).
    + destruct (decide (pin = cs)); [|apply IH; exact H].
      apply andb_true_iff in H as [H1 H2]. rewrite H1. apply IH, H2.
    + apply andb_true_iff in H as [-> H2]. apply IH, H2.
    + apply andb_true_iff in H as [-> H2]. apply IH, H2.
Qed.

Lemma cs_discipline_frame cs t : cs_discipline cs false (frame cs t) = true.
Proof.
  destruct t; cbn [frame cs_discipline];
    destruct (decide (cs = cs)); try contradiction; reflexivity.
Qed.

Lemma cs_discipline_frames cs ts : cs_discipline cs false (frames cs ts) = true.
Proof.
  induction ts as [|t ts IH]; [reflexivity|].
  cbn [frames]. rewrite cs_discipline_app; [exact IH|].
  apply cs_discipline_frame.
Qed.

Lemma framed_disciplined cs new ts :
  bus_events new = frames cs ts → cs_discipline cs false new = true.
Proof.
  intros H. rewrite <- cs_discipline_bus, H. apply cs_discipline_frames.
Qed.

(** *** Register access *)

Lemma emit_eq e t n : emit e (World t n) = World (t ++ [e]) n.
Proof. reflexivity. Qed.

Lemma reg_write_eq cs reg data w :
  reg_write cs reg data w =
  World (trace w ++ frame cs (TxWrite (u8 reg) (u8 data))) (rx_count w).
Proof.
  unfold reg_write, cs_select, cs_deselect, spi_write_blocking, nops,
    gpio_put, emit. cbn [trace rx_count frame].
  rewrite <- !app_assoc. reflexivity.
Qed.

Section Run.
Variable miso : nat → Z.
Local Abbreviation rx := (Bus.rx miso).
Local Abbreviation after_polls := (Bus.after_polls miso).
Local Abbreviation self_test_txns := (Bus.self_test_txns miso).

Lemma rx_length a n : length (rx a n) = n.
Proof. unfold rx. rewrite length_fmap. apply length_seq. Qed.

Lemma rx_S a n : rx a (S n) = u8 (miso a) :: rx (S a) n.
Proof. reflexivity. Qed.

Lemma reg_read_eq cs reg buf w :
  reg_read miso cs reg buf w =
  (u8 (miso (rx_count w)),
   World (trace w
          ++ frame cs (TxRead (u8 (Z.lor 0x80 reg)) (u8 (miso (rx_count w)))))
         (S (rx_count w))).
Proof.
  unfold reg_read, spi_read_blocking, cs_select, cs_deselect,
    spi_write_blocking, nops, gpio_put, emit.
  cbn [trace rx_count frame seq fmap list_fmap nth].
  rewrite <- !app_assoc, Nat.add_1_r. reflexivity.
Qed.

(** *** The loops of [self_test] *)

Lemma write_loop cs reg data n i w :
  for_loop n i (λ _, reg_write cs reg data) w =
  World (trace w ++ frames cs (replicate n (TxWrite (u8 reg) (u8 data))))
        (rx_count w).
Proof.
  revert i w. induction n as [|n IH]; intros i w.
  - cbn. rewrite app_nil_r. destruct w; reflexivity.
  - cbn [for_loop replicate frames]. rewrite IH, reg_write_eq.
    cbn [trace rx_count]. rewrite <- app_assoc. reflexivity.
Qed.

Lemma after_polls_S cs w m :
  after_polls cs
    (World (trace w
            ++ frame cs (TxRead (read_header FIFOLevelReg) (u8 (miso (rx_count w)))))
           (S (rx_count w))) m
  = after_polls cs w (S m).
Proof.
  unfold after_polls. cbn [trace rx_count]. rewrite rx_S.
  cbn [fmap list_fmap frames]. rewrite <- app_assoc.
  f_equal. lia.
Qed.

Lemma after_polls_1 cs w :
  after_polls cs w 1 =
  World (trace w
         ++ frame cs (TxRead (read_header FIFOLevelReg) (u8 (miso (rx_count w)))))
        (S (rx_count w)).
Proof.
  unfold after_polls. rewrite rx_S. cbn [rx seq fmap list_fmap frames].
  rewrite app_nil_r. f_equal. lia.
Qed.

Lemma wait_complete fuel cs w :
  wait_for_completion miso fuel cs true w = Returned tt w.
Proof. destruct fuel; reflexivity. Qed.

Lemma wait_step fuel cs w :
  wait_for_completion miso (S fuel) cs false w =
  if 64 <=? u8 (miso (rx_count w)) then Returned tt (after_polls cs w 1)
  else wait_for_completion miso fuel cs false (after_polls cs w 1).
Proof.
  cbn [wait_for_completion]. rewrite reg_read_eq.
  change (u8 (Z.lor 128 FIFOLevelReg)) with (read_header FIFOLevelReg).
  rewrite after_polls_1.
  destruct (64 <=? u8 (miso (rx_count w))); [apply wait_complete | reflexivity].
Qed.

(** Either some poll within the budget reads 64 or more, and the loop is
    left right after the first such poll, or none does and the loop is
    still running when the budget is used up. *)
Lemma wait_cases cs fuel : ∀ w,
  (∃ n, (n < fuel)%nat
        ∧ (∀ k, (k < n)%nat → u8 (miso (rx_count w + k)) < 64)
        ∧ 64 ≤ u8 (miso (rx_count w + n))
        ∧ wait_for_completion miso fuel cs false w
          = Returned tt (after_polls cs w (S n)))
  ∨ ((∀ k, (k < fuel)%nat → u8 (miso (rx_count w + k)) < 64)
     ∧ wait_for_completion miso fuel cs false w
       = Spinning (after_polls cs w fuel)).
Proof.
  induction fuel as [|fuel IH]; intros w.
  - right. split; [lia|]. unfold after_polls. cbn.
    rewrite app_nil_r, Nat.add_0_r. destruct w; reflexivity.
  - rewrite wait_step. destruct (64 <=? u8 (miso (rx_count w))) eqn:E.
    + left. exists 0%nat. rewrite Nat.add_0_r.
      repeat split; [lia | lia | apply Z.leb_le, E].
    + apply Z.leb_gt in E.
      assert (Hnext : ∀ k, (rx_count (after_polls cs w 1) + k
                            = rx_count w + S k)%nat)
        by (intros k; cbn; lia).
      assert (Hpoll : ∀ m, after_polls cs (after_polls cs w 1) m
                           = after_polls cs w (S m)).
      { intros m. rewrite after_polls_1. apply after_polls_S. }
      destruct (IH (after_polls cs w 1)) as [(n & Hn & Hlt & Hge & Hw)|[Hlt Hw]].
      * left. exists (S n). rewrite Hnext in Hge. rewrite Hpoll in Hw.
        repeat split; [lia | | exact Hge | exact Hw].
        intros [|k] Hk; [rewrite Nat.add_0_r; exact E|].
        rewrite <- Hnext. apply Hlt. lia.
      * right. rewrite Hpoll in Hw. split; [|exact Hw].
        intros [|k] Hk; [rewrite Nat.add_0_r; exact E|].
        rewrite <- Hnext. apply Hlt. lia.
Qed.

Lemma read_loop cs n : ∀ i l w,
  (i + n ≤ length l)%nat →
  for_loop n i (read_result_step miso cs) (l, w) =
  (take i l ++ rx (rx_count w) n ++ drop (i + n) l,
   World (trace w
          ++ frames cs (TxRead (read_header FIFODataReg) <$> rx (rx_count w) n))
         (rx_count w + n)).
Proof.
  induction n as [|n IH]; intros i l w Hlen.
  - cbn. rewrite Nat.add_0_r, take_drop, app_nil_r, Nat.add_0_r.
    destruct w; reflexivity.
  - cbn [for_loop]. unfold read_result_step at 2. cbn [fst snd].
    rewrite reg_read_eq.
    change (u8 (Z.lor 128 FIFODataReg)) with (read_header FIFODataReg).
    rewrite IH by (rewrite length_insert; lia).
    cbn [trace rx_count]. rewrite rx_S. cbn [fmap list_fmap frames].
    f_equal.
    + rewrite (take_S_r _ i (u8 (miso (rx_count w))))
        by (apply list_lookup_insert_eq; lia).
      rewrite take_insert_ge by lia. rewrite drop_insert_lt by lia.
      rewrite <- app_assoc. cbn [app].
      replace (S i + n)%nat with (i + S n)%nat by lia. reflexivity.
    + rewrite <- app_assoc. f_equal. lia.
Qed.

Lemma print_loop result n : ∀ i w,
  ∃ out, for_loop n i (print_result_step result) w
         = World (trace w ++ out) (rx_count w)
         ∧ bus_events out = [].
Proof.
  induction n as [|n IH]; intros i w.
  - exists []. cbn. rewrite app_nil_r. destruct w; split; reflexivity.
  - cbn [for_loop]. destruct (IH (S i) (print_result_step result i w))
      as (out & -> & Hout).
    unfold print_result_step, printf, emit.
    destruct (Z.of_nat i mod 10 =? 0); cbn [trace rx_count];
      rewrite <- ?app_assoc; eexists; (split; [reflexivity|]);
      rewrite ?bus_events_app, Hout; reflexivity.
Qed.

(** *** The whole of [self_test] *)

Lemma self_test_cases fuel cs sck mosi mi w :
  (∃ n new,
      (n < fuel)%nat
      ∧ (∀ k, (k < n)%nat → u8 (miso (rx_count w + k)) < 64)
      ∧ 64 ≤ u8 (miso (rx_count w + n))
      ∧ self_test miso fuel cs sck mosi mi w
        = Returned (compare_result 64 0 (rx (rx_count w + S n) 64))
                   (World (trace w ++ new) (rx_count w + S n + 64))
      ∧ bus_events new = frames cs (self_test_txns (rx_count w) (S n)))
  ∨ (∃ new,
      (∀ k, (k < fuel)%nat → u8 (miso (rx_count w + k)) < 64)
      ∧ self_test miso fuel cs sck mosi mi w
        = Spinning (World (trace w ++ new) (rx_count w + fuel))
      ∧ bus_events new
        = frames cs (self_test_setup
                     ++ (TxRead (read_header FIFOLevelReg)
                           <$> rx (rx_count w) fuel))).
Proof.
  unfold self_test. cbv zeta.
  rewrite !reg_write_eq, write_loop.
  unfold sleep_ms, printf, emit. cbn [trace rx_count].
  rewrite <- !app_assoc.
  match goal with
  | |- context [wait_for_completion _ _ _ false (World (trace w ++ ?p) _)] =>
      set (pre := p)
  end.
  assert (Hpre : bus_events pre = frames cs self_test_setup) by reflexivity.
  clearbody pre.
  destruct (wait_cases cs fuel (World (trace w ++ pre) (rx_count w)))
    as [(n & Hn & Hlt & Hge & Hw)|[Hlt Hw]]; cbn [rx_count] in *; rewrite Hw.
  - left. exists n.
    rewrite read_loop by (rewrite length_replicate; lia).
    change (take 0 (replicate 64 0)) with (@nil Z).
    change (drop (0 + 64) (replicate 64 0)) with (@nil Z).
    rewrite app_nil_r. cbn [app].
    rewrite reg_write_eq. unfold after_polls. cbn [trace rx_count].
    match goal with
    | |- context [for_loop 64 0 (print_result_step ?r) ?W] =>
        destruct (print_loop r 64 0 W) as (out & -> & Hbus)
    end.
    cbn [trace rx_count]. rewrite <- !app_assoc.
    eexists. repeat split; [exact Hn | exact Hlt | exact Hge |].
    rewrite !bus_events_app, Hpre, Hbus, !bus_events_frames, bus_events_frame.
    unfold self_test_txns. rewrite !frames_app. reflexivity.
  - right. unfold after_polls. cbn [trace rx_count]. rewrite <- !app_assoc.
    eexists. repeat split; [exact Hlt |].
    rewrite !bus_events_app, Hpre, !bus_events_frames, frames_app.
    reflexivity.
Qed.

(** *** The comparison with the stored bytes *)

Lemma compare_result_cases n : ∀ i result,
  (compare_result n i result = 0
   ∧ ∀ j, (i ≤ j < i + n)%nat → result !!! j = PROGMEM !!! j)
  ∨ (compare_result n i result = 255
     ∧ ∃ j, (i ≤ j < i + n)%nat ∧ result !!! j ≠ PROGMEM !!! j).
Proof.
  induction n as [|n IH]; intros i result; cbn [compare_result].
  - left. split; [reflexivity | lia].
  - destruct (decide (result !!! i ≠ PROGMEM !!! i)) as [Hne|Heq].
    + right. split; [reflexivity|]. exists i. split; [lia | exact Hne].
    + apply dec_stable in Heq.
      destruct (IH (S i) result) as [[H0 Hall]|[H1 (j & Hj & Hne)]].
      * left. split; [exact H0|]. intros j Hj.
        destruct (decide (j = i)) as [->|Hji]; [exact Heq | apply Hall; lia].
      * right. split; [exact H1|]. exists j. split; [lia | exact Hne].
Qed.

Lemma PROGMEM_length : length PROGMEM = 64%nat.
Proof. reflexivity. Qed.

Lemma eq_PROGMEM_lookup (result : list Z) :
  length result = 64%nat →
  (∀ j, (j < 64)%nat → result !!! j = PROGMEM !!! j) → result = PROGMEM.
Proof.
  intros Hlen Hall.
  apply (list_eq_same_length _ _ 64%nat); [reflexivity | exact Hlen |].
  intros j x y Hj Hx Hy.
  apply list_lookup_total_correct in Hx, Hy. rewrite <- Hx, <- Hy.
  apply Hall, Hj.
Qed.

Lemma compare_result_pass (result : list Z) :
  length result = 64%nat →
  compare_result 64 0 result = 0 ↔ result = PROGMEM.
Proof.
  intros Hlen. split.
  - intros H0. destruct (compare_result_cases 64 0 result) as [[_ Hall]|[H1 _]].
    + apply eq_PROGMEM_lookup; [exact Hlen|]. intros j Hj. apply Hall. lia.
    + rewrite H0 in H1. discriminate H1.
  - intros ->. reflexivity.
Qed.

Lemma compare_result_fail (result : list Z) :
  length result = 64%nat →
  result ≠ PROGMEM → compare_result 64 0 result = 255.
Proof.
  intros Hlen Hne.
  destruct (compare_result_cases 64 0 result) as [[H0 _]|[H1 _]]; [|exact H1].
  apply compare_result_pass in H0; [contradiction | exact Hlen].
Qed.

Lemma one_byte_off (k : nat) (v : Z) :
  (k < 64)%nat → v ≠ PROGMEM !!! k → <[k := v]> PROGMEM ≠ PROGMEM.
Proof.
  intros Hk Hv Heq. apply Hv.
  assert (H : <[k := v]> PROGMEM !!! k = v)
    by (apply list_lookup_total_insert_eq; rewrite PROGMEM_length; exact Hk).
  rewrite Heq in H. symmetry. exact H.
Qed.

(** *** Register addresses *)

Lemma address_cases (P : Z → Prop) :
  (∀ k, (k < 64)%nat → P (Z.of_nat k)) → ∀ r, 0 ≤ r ≤ 63 → P r.
Proof.
  intros H r Hr. rewrite <- (Z2Nat.id r) by lia. apply H. lia.
Qed.

Lemma write_header_eq r :
  0 ≤ r ≤ 63 →
  u8 (shifted r) = Z.land (Z.shiftl r 1) 0xFE
  ∧ Z.testbit (Z.land (Z.shiftl r 1) 0xFE) 0 = false
  ∧ Z.testbit (Z.land (Z.shiftl r 1) 0xFE) 7 = false.
Proof.
  revert r. apply address_cases. intros k Hk.
  do 64 (destruct k as [|k]; [vm_compute; auto|]). lia.
Qed.

Lemma read_header_eq r :
  0 ≤ r ≤ 63 →
  u8 (Z.lor 0x80 (shifted r)) = Z.lor 0x80 (Z.land (Z.shiftl r 1) 0x7E)
  ∧ Z.testbit (Z.lor 0x80 (Z.land (Z.shiftl r 1) 0x7E)) 7 = true
  ∧ Z.testbit (Z.lor 0x80 (Z.land (Z.shiftl r 1) 0x7E)) 0 = false.
Proof.
  revert r. apply address_cases. intros k Hk.
  do 64 (destruct k as [|k]; [vm_compute; auto|]). lia.
Qed.

Lemma rx_snoc a n : rx a (S n) = rx a n ++ [u8 (miso (a + n)%nat)].
Proof. unfold Bus.rx. rewrite seq_S, fmap_app. reflexivity. Qed.

Lemma rx_below a n :
  (∀ k, (k < n)%nat → u8 (miso (a + k)%nat) < 64) →
  Forall (λ b, b < 64) (rx a n).
Proof.
  intros H. apply Forall_fmap, Forall_seq. intros j Hj. cbn.
  replace j with (a + (j - a))%nat by lia. apply H. lia.
Qed.

(** What a run of [self_test] that returns has done. *)
Lemma self_test_returned fuel cs sck mosi mi w r w' :
  self_test miso fuel cs sck mosi mi w = Returned r w' →
  ∃ n new,
    (∀ k, (k < n)%nat → u8 (miso (rx_count w + k)%nat) < 64)
    ∧ 64 ≤ u8 (miso (rx_count w + n)%nat)
    ∧ r = compare_result 64 0 (rx (rx_count w + S n) 64)
    ∧ w' = World (trace w ++ new) (rx_count w + S n + 64)
    ∧ bus_events new = frames cs (self_test_txns (rx_count w) (S n)).
Proof.
  intros Hret.
  destruct (self_test_cases fuel cs sck mosi mi w)
    as [(n & new & _ & Hlt & Hge & Hr & Hbus)|(new & _ & Hs & _)].
  - rewrite Hr in Hret. injection Hret as <- <-.
    exists n, new. repeat split; assumption.
  - rewrite Hs in Hret. discriminate Hret.
Qed.

(** *** main *)

Lemma idle_trace fuel : ∀ w,
  ∃ out, idle fuel w = Spinning (World (trace w ++ out) (rx_count w))
         ∧ bus_events out = [].
Proof.
  induction fuel as [|fuel IH]; intros w; cbn [idle].
  - exists []. rewrite app_nil_r. destruct w; split; reflexivity.
  - destruct (IH (sleep_ms 1000 w)) as (out & -> & Hout).
    unfold sleep_ms, emit. cbn [trace rx_count]. rewrite <- app_assoc.
    eexists. split; [reflexivity|]. rewrite bus_events_app, Hout. reflexivity.
Qed.

Lemma no_reads_of reg header (l : list Z) :
  (header =? read_header reg) = false →
  forallb (λ t, negb (reads_register reg t)) (TxRead header <$> l) = true.
Proof.
  intros H. induction l as [|v l IH]; [reflexivity|].
  cbn [fmap list_fmap forallb reads_register]. rewrite H. exact IH.
Qed.

Lemma self_test_reads_no_version a n :
  forallb (λ t, negb (reads_register VersionReg t)) (self_test_txns a n)
  = true.
Proof.
  unfold Bus.self_test_txns. rewrite !forallb_app, !no_reads_of by reflexivity.
  reflexivity.
Qed.

(** What a run of [main] does before it enters [self_test], and what
    becomes of the value [self_test] returns. *)
Lemma main_body_run fuel w :
  ∃ setup new ts w1,
    forallb (λ e, negb (is_transfer e)) setup = true
    ∧ rx_count w1 = S (rx_count w)
    ∧ value_of (main_body miso fuel w)
      = to_char <$> value_of (self_test miso fuel 17 18 19 16 w1)
    ∧ trace (world_of (main_body miso fuel w))
      = trace w ++ setup
        ++ frame 17 (TxWrite CommandReg SoftReset) ++ [SleepMs 50]
        ++ frame 17 (TxRead (read_header VersionReg) (u8 (miso (rx_count w))))
        ++ [Printf "Version: %x\n\r" [u8 (miso (rx_count w))]]
        ++ new
    ∧ bus_events new = frames 17 ts
    ∧ forallb (λ t, negb (reads_register VersionReg t)) ts = true.
Proof.
  exists [GpioInit LED_PIN; GpioInit RESET_PIN; GpioSetDir LED_PIN true;
          GpioSetDir RESET_PIN true; StdioInitAll; GpioPut RESET_PIN false;
          SleepMs 1000; GpioPut RESET_PIN true; GpioInit 17;
          GpioSetDir 17 true; GpioPut 17 true; SpiInit 1000000;
          SpiSetFormat 8 0 0 true; GpioSetFunction 18 GPIO_FUNC_SPI;
          GpioSetFunction 19 GPIO_FUNC_SPI; GpioSetFunction 16 GPIO_FUNC_SPI;
          SleepMs 5000; Printf "Test Started\n\r" []].
  destruct w as [t a]. unfold main_body. cbv zeta.
  unfold sleep_ms, printf, gpio_put. rewrite !emit_eq.
  rewrite reg_write_eq. cbn [trace rx_count]. rewrite emit_eq.
  rewrite reg_read_eq. cbn [trace rx_count]. rewrite emit_eq.
  rewrite <- !app_assoc.
  match goal with
  | |- context [self_test miso fuel 17 18 19 16 ?W] => set (w1 := W)
  end.
  destruct (self_test_cases fuel 17 18 19 16 w1)
    as [(n & new & _ & _ & _ & Hr & Hbus)|(new & _ & Hs & Hbus)].
  - rewrite Hr. cbn [trace rx_count world_of value_of]. rewrite emit_eq.
    cbn [trace rx_count world_of value_of].
    exists (new ++ [Printf "Test Result: %d\n\r"
                      [to_char (compare_result 64 0
                                  (rx (rx_count w1 + S n) 64))]]),
      (self_test_txns (rx_count w1) (S n)), w1.
    split; [reflexivity|]. split; [reflexivity|].
    split; [rewrite Hr; reflexivity|].
    split; [subst w1; cbn [trace]; rewrite <- !app_assoc; reflexivity|].
    split; [|apply self_test_reads_no_version].
    rewrite bus_events_app, Hbus. apply app_nil_r.
  - rewrite Hs. cbn [trace rx_count world_of value_of].
    eexists new, _, w1.
    split; [reflexivity|]. split; [reflexivity|].
    split; [rewrite Hs; reflexivity|].
    split; [subst w1; cbn [trace]; rewrite <- !app_assoc; reflexivity|].
    split; [exact Hbus|].
    rewrite forallb_app, no_reads_of by reflexivity. reflexivity.
Qed.

Lemma main_trace fuel w :
  ∃ out, trace (world_of (main miso fuel w))
         = trace (world_of (main_body miso fuel w)) ++ out
         ∧ bus_events out = [].
Proof.
  unfold main. destruct (main_body miso fuel w) as [r w1|w1].
  - destruct (idle_trace fuel w1) as (out & -> & Hout).
    exists out. split; [reflexivity | exact Hout].
  - exists []. split; [symmetry; apply app_nil_r | reflexivity].
Qed.

End Run.

(** *** Two devices *)

Lemma rx_ext (m1 m2 : nat → Z) n : ∀ a,
  (∀ k, (a ≤ k)%nat → m1 k = m2 k) → rx m1 a n = rx m2 a n.
Proof.
  induction n as [|n IH]; intros a H; [reflexivity|].
  rewrite !rx_S, (H a) by lia. f_equal. apply IH. intros k Hk. apply H. lia.
Qed.

(** The value of [self_test] depends on the device only through the
    bytes it sends from the entry to [self_test] on. *)
Lemma self_test_value_ext (m1 m2 : nat → Z) fuel cs1 sck1 mosi1 mi1
    cs2 sck2 mosi2 mi2 w1 w2 :
  rx_count w1 = rx_count w2 →
  (∀ k, (rx_count w1 ≤ k)%nat → m1 k = m2 k) →
  value_of (self_test m1 fuel cs1 sck1 mosi1 mi1 w1)
  = value_of (self_test m2 fuel cs2 sck2 mosi2 mi2 w2).
Proof.
  intros Hrx Hext.
  destruct (self_test_cases m1 fuel cs1 sck1 mosi1 mi1 w1)
    as [(n1 & new1 & Hn1 & Hlt1 & Hge1 & -> & _)|(new1 & Hlt1 & -> & _)];
  destruct (self_test_cases m2 fuel cs2 sck2 mosi2 mi2 w2)
    as [(n2 & new2 & Hn2 & Hlt2 & Hge2 & -> & _)|(new2 & Hlt2 & -> & _)];
  cbn [value_of]; rewrite <- Hrx in *.
  - assert (n1 = n2) as <-.
    { destruct (Nat.lt_trichotomy n1 n2) as [H|[H|H]]; [|exact H|].
      - specialize (Hlt2 n1 H). rewrite <- Hext in Hlt2 by lia. lia.
      - specialize (Hlt1 n2 H). rewrite Hext in Hlt1 by lia. lia. }
    f_equal. f_equal. apply rx_ext. intros k Hk. apply Hext. lia.
  - specialize (Hlt2 n1 Hn1). rewrite <- Hext in Hlt2 by lia. lia.
  - specialize (Hlt1 n2 Hn2). rewrite Hext in Hlt1 by lia. lia.
  - reflexivity.
Qed.

(** ** Register transactions *)

(** C3. A write to the register with logical address [r] in 0..63, whose
    constant the driver holds as [r << 1], sends in one
    [spi_write_blocking] call the two bytes [(r << 1) & 0xFE] and [d]:
    bit 0 and the mode bit (bit 7) of the first byte are clear. *)
Theorem reg_write_frame (cs r d : Z) (w : world) :
  0 ≤ r ≤ 63 → 0 ≤ d ≤ 255 →
  let header := Z.land (Z.shiftl r 1) 0xFE in
  reg_write cs (shifted r) d w
  = World (trace w ++ [Nop3; GpioPut cs false; Nop3;
                       SpiWrite [header; d];
                       Nop3; GpioPut cs true; Nop3])
          (rx_count w)
  ∧ Z.testbit header 0 = false
  ∧ Z.testbit header 7 = false.
Proof.
  intros Hr Hd header.
  destruct (write_header_eq r Hr) as (He & H0 & H7).
  split; [|split; assumption].
  rewrite reg_write_eq. cbn [frame].
  rewrite He, (u8_small d) by lia. reflexivity.
Qed.

Lemma reg_write_frame_witness :
  (0 ≤ 0x36 ≤ 63 ∧ 0 ≤ 0x09 ≤ 255)
  ∧ reg_write 17 AutoTestReg 0x09 boot
    = World [Nop3; GpioPut 17 false; Nop3;
             SpiWrite [0x6C; 0x09];
             Nop3; GpioPut 17 true; Nop3] 0
  ∧ Z.testbit 0x6C 0 = false
  ∧ Z.testbit 0x6C 7 = false.
Proof.
  split; [lia|]. apply (reg_write_frame 17 0x36 0x09 boot); lia.
Defined.

(** C4. A read of the register with logical address [r] in 0..63 sends
    the single byte [0x80 | ((r << 1) & 0x7E)], whose mode bit is set,
    then clocks in exactly one byte with zero on the output line; the
    caller's buffer ends up holding that byte, whatever it held before. *)
Theorem reg_read_frame (miso : nat → Z) (cs r buf : Z) (w : world) :
  0 ≤ r ≤ 63 →
  let header := Z.lor 0x80 (Z.land (Z.shiftl r 1) 0x7E) in
  let v := u8 (miso (rx_count w)) in
  reg_read miso cs (shifted r) buf w
  = (v, World (trace w ++ [Nop3; GpioPut cs false; Nop3;
                           SpiWrite [header]; SpiRead 0 [v];
                           Nop3; GpioPut cs true; Nop3])
              (S (rx_count w)))
  ∧ Z.testbit header 7 = true
  ∧ (0 ≤ miso (rx_count w) ≤ 255 → v = miso (rx_count w)).
Proof.
  intros Hr header v.
  destruct (read_header_eq r Hr) as (He & H7 & _).
  split; [|split; [exact H7 | intros Hb; apply u8_small; lia]].
  rewrite reg_read_eq. cbn [frame]. rewrite He. reflexivity.
Qed.

Lemma reg_read_frame_witness :
  0 ≤ 0x37 ≤ 63
  ∧ reg_read (versioned 0x92 dead_chip) 17 VersionReg 0x0A boot
    = (0x92, World [Nop3; GpioPut 17 false; Nop3;
                    SpiWrite [0xEE]; SpiRead 0 [0x92];
                    Nop3; GpioPut 17 true; Nop3] 1)
  ∧ Z.testbit 0xEE 7 = true
  ∧ (0 ≤ 0x92 ≤ 255 → 0x92 = 0x92).
Proof.
  split; [lia|].
  apply (reg_read_frame (versioned 0x92 dead_chip) 17 0x37 0x0A boot); lia.
Defined.

(** ** The completion poll *)

(** C9. One iteration of the polling loop compares the byte read from
    the FIFO level register, as an unsigned value and with no bit masked
    off, with 64: a byte of 64 or more ends the loop right after that
    read, a smaller one leads to the next iteration.  A read of [0x80],
    whose low seven bits are all zero, ends the loop. *)
Theorem completion_test_is_unmasked (miso : nat → Z) (fuel : nat) (cs : Z)
    (w : world) :
  let b := fst (reg_read miso cs FIFOLevelReg 0 w) in
  let w1 := snd (reg_read miso cs FIFOLevelReg 0 w) in
  b = u8 (miso (rx_count w))
  ∧ (64 ≤ b →
     wait_for_completion miso (S fuel) cs false w = Returned tt w1)
  ∧ (b < 64 →
     wait_for_completion miso (S fuel) cs false w
     = wait_for_completion miso fuel cs false w1)
  ∧ (miso (rx_count w) = 0x80 →
     Z.land b 0x7F = 0
     ∧ wait_for_completion miso (S fuel) cs false w = Returned tt w1).
Proof.
  intros b w1.
  assert (Hb : b = u8 (miso (rx_count w)))
    by (subst b; rewrite reg_read_eq; reflexivity).
  assert (Hw1 : w1 = after_polls miso cs w 1)
    by (subst w1; rewrite reg_read_eq, after_polls_1; reflexivity).
  rewrite wait_step, <- Hb, <- Hw1.
  split; [exact Hb|]. split; [|split].
  - intros H. apply Z.leb_le in H. rewrite H. reflexivity.
  - intros H. apply Z.leb_gt in H. rewrite H. reflexivity.
  - intros H. rewrite H in Hb. change (u8 128) with 128 in Hb.
    rewrite Hb. split; reflexivity.
Qed.

Lemma completion_test_is_unmasked_witness :
  let miso := chip 1 0x80 PROGMEM in
  let w := snd (reg_read miso 17 FIFOLevelReg 0 boot) in
  let b := fst (reg_read miso 17 FIFOLevelReg 0 w) in
  let w1 := snd (reg_read miso 17 FIFOLevelReg 0 w) in
  (64 ≤ fst (reg_read miso 17 FIFOLevelReg 0 w)
   ∧ fst (reg_read miso 17 FIFOLevelReg 0 boot) < 64
   ∧ miso (rx_count w) = 0x80)
  ∧ b = 0x80
  ∧ Z.land b 0x7F = 0
  ∧ wait_for_completion miso 1 cs_pin_of_main false w = Returned tt w1
  ∧ wait_for_completion miso 2 cs_pin_of_main false boot
    = wait_for_completion miso 1 cs_pin_of_main false w.
Proof.
  intros miso w b w1.
  pose proof (completion_test_is_unmasked miso 0 17 w) as (Hb & Hge & _ & H80).
  pose proof (completion_test_is_unmasked miso 1 17 boot) as (_ & _ & Hlt & _).
  assert (H1 : 64 ≤ fst (reg_read miso 17 FIFOLevelReg 0 w))
    by (vm_compute; discriminate).
  assert (H2 : fst (reg_read miso 17 FIFOLevelReg 0 boot) < 64)
    by (vm_compute; reflexivity).
  assert (H3 : miso (rx_count w) = 0x80) by reflexivity.
  split; [auto|]. split; [exact Hb|].
  split; [exact (proj1 (H80 H3))|].
  split; [exact (Hge H1) | exact (Hlt H2)].
Defined.

(** C5. The polling loop is left, and [self_test] returns, exactly when
    some read of the FIFO level register yields 64 or more; no number of
    iterations is enough for every device, and on a device whose level
    never reaches 64 the loop is still running after any number of
    iterations, so that [self_test] never returns. *)
Theorem polling_terminates_iff (miso : nat → Z) (cs sck mosi mi : Z)
    (w : world) :
  ((∃ fuel w', wait_for_completion miso fuel cs false w = Returned tt w')
   ↔ ∃ n, 64 ≤ u8 (miso (rx_count w + n)%nat))
  ∧ ((∃ fuel r w', self_test miso fuel cs sck mosi mi w = Returned r w')
     ↔ ∃ n, 64 ≤ u8 (miso (rx_count w + n)%nat))
  ∧ (∀ n, (∀ k, (k < n)%nat → u8 (miso (rx_count w + k)%nat) < 64) →
          64 ≤ u8 (miso (rx_count w + n)%nat) →
          (∃ w', self_test miso n cs sck mosi mi w = Spinning w')
          ∧ (∃ r w', self_test miso (S n) cs sck mosi mi w = Returned r w'))
  ∧ ((∀ n, u8 (miso (rx_count w + n)%nat) < 64) →
     ∀ fuel, (∃ w', wait_for_completion miso fuel cs false w = Spinning w')
             ∧ (∃ w', self_test miso fuel cs sck mosi mi w = Spinning w')).
Proof.
  assert (Hfirst : ∀ n, 64 ≤ u8 (miso (rx_count w + n)%nat) →
            ∃ m, (∀ k, (k < m)%nat → u8 (miso (rx_count w + k)%nat) < 64)
                 ∧ 64 ≤ u8 (miso (rx_count w + m)%nat)).
  { intros n Hn.
    destruct (wait_cases miso cs (S n) w)
      as [(m & _ & Hlt & Hge & _)|[Hlt _]]; [eauto|].
    specialize (Hlt n ltac:(lia)). lia. }
  assert (Hrun : ∀ n, (∀ k, (k < n)%nat → u8 (miso (rx_count w + k)%nat) < 64) →
            64 ≤ u8 (miso (rx_count w + n)%nat) →
            (∃ w', self_test miso n cs sck mosi mi w = Spinning w')
            ∧ (∃ r w', self_test miso (S n) cs sck mosi mi w = Returned r w')).
  { intros n Hlt Hge. split.
    - destruct (self_test_cases miso n cs sck mosi mi w)
        as [(m & new & Hm & _ & Hge' & _)|(new & _ & Hs & _)]; [|eauto].
      specialize (Hlt m Hm). lia.
    - destruct (self_test_cases miso (S n) cs sck mosi mi w)
        as [(m & new & _ & _ & _ & Hr & _)|(new & Hlt' & _)]; [eauto|].
      specialize (Hlt' n ltac:(lia)). lia. }
  split; [|split; [|split]].
  - split.
    + intros (fuel & w' & Hret).
      destruct (wait_cases miso cs fuel w)
        as [(n & _ & _ & Hge & _)|[_ Hs]]; [eauto|].
      rewrite Hs in Hret. discriminate Hret.
    + intros (n & Hn). destruct (Hfirst n Hn) as (m & Hlt & Hge).
      exists (S m).
      destruct (wait_cases miso cs (S m) w)
        as [(k & _ & _ & _ & Hr)|[Hlt' _]]; [eauto|].
      specialize (Hlt' m ltac:(lia)). lia.
  - split.
    + intros (fuel & r & w' & Hret).
      destruct (self_test_cases miso fuel cs sck mosi mi w)
        as [(n & new & _ & _ & Hge & _)|(new & _ & Hs & _)]; [eauto|].
      rewrite Hs in Hret. discriminate Hret.
    + intros (n & Hn). destruct (Hfirst n Hn) as (m & Hlt & Hge).
      exists (S m). apply (Hrun m Hlt Hge).
  - exact Hrun.
  - intros Hnever fuel. split.
    + destruct (wait_cases miso cs fuel w)
        as [(n & _ & _ & Hge & _)|[_ Hs]]; [|eauto].
      specialize (Hnever n). lia.
    + destruct (self_test_cases miso fuel cs sck mosi mi w)
        as [(n & new & _ & _ & Hge & _)|(new & _ & Hs & _)]; [|eauto].
      specialize (Hnever n). lia.
Qed.

Lemma polling_terminates_iff_witness :
  let miso := chip 3 64 PROGMEM in
  ((∀ n, u8 (dead_chip (rx_count boot + n)%nat) < 64)
   ∧ (∀ k, (k < 3)%nat → u8 (miso (rx_count boot + k)%nat) < 64)
   ∧ 64 ≤ u8 (miso (rx_count boot + 3)%nat))
  ∧ (∀ fuel,
      (∃ w', wait_for_completion dead_chip fuel 17 false boot = Spinning w')
      ∧ (∃ w', self_test dead_chip fuel 17 18 19 16 boot = Spinning w'))
  ∧ (∃ w', self_test miso 3 17 18 19 16 boot = Spinning w')
  ∧ (∃ r w', self_test miso 4 17 18 19 16 boot = Returned r w').
Proof.
  intros miso.
  assert (H : ∀ n, u8 (dead_chip (rx_count boot + n)%nat) < 64)
    by (intros n; reflexivity).
  assert (H1 : ∀ k, (k < 3)%nat → u8 (miso (rx_count boot + k)%nat) < 64).
  { intros k Hk. do 3 (destruct k as [|k]; [reflexivity|]). lia. }
  assert (H2 : 64 ≤ u8 (miso (rx_count boot + 3)%nat))
    by (vm_compute; discriminate).
  split; [auto|]. split.
  - exact (proj2 (proj2 (proj2
             (polling_terminates_iff dead_chip 17 18 19 16 boot))) H).
  - exact (proj1 (proj2 (proj2
             (polling_terminates_iff miso 17 18 19 16 boot))) 3%nat H1 H2).
Defined.

(** ** The self test *)

(** C1. A run of [self_test] that returns has put on the bus, in this
    order and nothing else: the soft reset, the FIFO flush, 25 writes of
    zero to the FIFO, the Mem command, the write of 09h to the auto test
    register, one write of zero to the FIFO, the CalcCRC command, one or
    more reads of the FIFO level of which the last, and only the last, is
    64 or more, 64 reads of the FIFO, and the write of zero to the auto
    test register.  This holds whatever value [r] is returned. *)
Theorem self_test_transaction_sequence (miso : nat → Z) (fuel : nat)
    (cs sck mosi mi : Z) (w : world) (r : Z) (w' : world) :
  self_test miso fuel cs sck mosi mi w = Returned r w' →
  ∃ new polls last result,
    trace w' = trace w ++ new
    ∧ Forall (λ b, b < 64) polls ∧ 64 ≤ last ∧ length result = 64%nat
    ∧ polls ++ [last] = rx miso (rx_count w) (S (length polls))
    ∧ result = rx miso (rx_count w + S (length polls)) 64
    ∧ bus_events new
      = frames cs
          ([TxWrite CommandReg SoftReset; TxWrite FIFOLevelReg 0x80]
           ++ replicate 25 (TxWrite FIFODataReg 0x00)
           ++ [TxWrite CommandReg Mem; TxWrite AutoTestReg 0x09;
               TxWrite FIFODataReg 0x00; TxWrite CommandReg CalcCRC]
           ++ (TxRead (read_header FIFOLevelReg) <$> (polls ++ [last]))
           ++ (TxRead (read_header FIFODataReg) <$> result)
           ++ [TxWrite AutoTestReg 0x00]).
Proof.
  intros Hret.
  destruct (self_test_returned miso fuel cs sck mosi mi w r w' Hret)
    as (n & new & Hlt & Hge & _ & -> & Hbus).
  exists new, (rx miso (rx_count w) n), (u8 (miso (rx_count w + n)%nat)),
    (rx miso (rx_count w + S n) 64).
  rewrite !rx_length, <- rx_snoc.
  repeat split; [apply rx_below, Hlt | exact Hge |].
  rewrite Hbus. unfold self_test_txns, self_test_setup.
  rewrite <- !app_assoc. reflexivity.
Qed.

Lemma self_test_transaction_sequence_witness :
  let miso := chip 2 64 PROGMEM in
  let run := self_test miso 3 17 18 19 16 boot in
  run = Returned 0 (world_of run)
  ∧ ∃ new polls last result,
      trace (world_of run) = trace boot ++ new
      ∧ Forall (λ b, b < 64) polls ∧ 64 ≤ last ∧ length result = 64%nat
      ∧ polls ++ [last] = rx miso (rx_count boot) (S (length polls))
      ∧ result = rx miso (rx_count boot + S (length polls)) 64
      ∧ bus_events new
        = frames 17
            ([TxWrite CommandReg SoftReset; TxWrite FIFOLevelReg 0x80]
             ++ replicate 25 (TxWrite FIFODataReg 0x00)
             ++ [TxWrite CommandReg Mem; TxWrite AutoTestReg 0x09;
                 TxWrite FIFODataReg 0x00; TxWrite CommandReg CalcCRC]
             ++ (TxRead (read_header FIFOLevelReg) <$> (polls ++ [last]))
             ++ (TxRead (read_header FIFODataReg) <$> result)
             ++ [TxWrite AutoTestReg 0x00]).
Proof.
  intros miso run.
  assert (H : run = Returned 0 (world_of run)) by (vm_compute; reflexivity).
  split; [exact H|].
  exact (self_test_transaction_sequence miso 3 17 18 19 16 boot 0
           (world_of run) H).
Defined.

(** C2. In a run of [self_test] that returns, the 64 bytes read from the
    FIFO data register just before the auto test register is cleared
    decide the value returned: it is 0 exactly when they are the stored
    bytes [PROGMEM], position by position; it is 0 when they are the
    stored bytes, and 255 when they are the stored bytes with the one at
    some position [k] replaced by another value. *)
Theorem self_test_verdict (miso : nat → Z) (fuel : nat)
    (cs sck mosi mi : Z) (w : world) (r : Z) (w' : world) :
  self_test miso fuel cs sck mosi mi w = Returned r w' →
  ∃ new head polls result,
    trace w' = trace w ++ new
    ∧ bus_events new
      = frames cs (head
                   ++ (TxRead (read_header FIFODataReg) <$> result)
                   ++ [TxWrite AutoTestReg 0x00])
    ∧ result = rx miso (rx_count w + polls) 64
    ∧ length result = 64%nat
    ∧ (r = 0 ↔ result = PROGMEM)
    ∧ (result = PROGMEM → r = 0)
    ∧ (∀ k v, (k < 64)%nat → v ≠ PROGMEM !!! k →
              result = <[k := v]> PROGMEM → r = 255).
Proof.
  intros Hret.
  destruct (self_test_returned miso fuel cs sck mosi mi w r w' Hret)
    as (n & new & _ & _ & -> & -> & Hbus).
  pose proof (rx_length miso (rx_count w + S n) 64) as Hlen.
  exists new,
    (self_test_setup
     ++ (TxRead (read_header FIFOLevelReg) <$> rx miso (rx_count w) (S n))),
    (S n), (rx miso (rx_count w + S n) 64).
  split; [reflexivity|]. split.
  { rewrite Hbus. unfold self_test_txns. rewrite <- !app_assoc. reflexivity. }
  split; [reflexivity|]. split; [exact Hlen|].
  split; [apply compare_result_pass, Hlen|].
  split; [apply compare_result_pass, Hlen|].
  intros k v Hk Hv Heq. apply compare_result_fail; [exact Hlen|].
  rewrite Heq. apply one_byte_off; assumption.
Qed.

Lemma self_test_verdict_witness :
  let miso := chip 0 64 PROGMEM in
  let run := self_test miso 1 17 18 19 16 boot in
  run = Returned 0 (world_of run)
  ∧ ∃ new head polls result,
      trace (world_of run) = trace boot ++ new
      ∧ bus_events new
        = frames 17 (head
                     ++ (TxRead (read_header FIFODataReg) <$> result)
                     ++ [TxWrite AutoTestReg 0x00])
      ∧ result = rx miso (rx_count boot + polls) 64
      ∧ length result = 64%nat
      ∧ (0 = 0 ↔ result = PROGMEM)
      ∧ (result = PROGMEM → 0 = 0)
      ∧ (∀ k v, (k < 64)%nat → v ≠ PROGMEM !!! k →
                result = <[k := v]> PROGMEM → 0 = 255).
Proof.
  intros miso run.
  assert (H : run = Returned 0 (world_of run)) by (vm_compute; reflexivity).
  split; [exact H|].
  exact (self_test_verdict miso 1 17 18 19 16 boot 0 (world_of run) H).
Defined.



(** ** Chip select *)

(** C6. Chip select is asserted, between two settling delays, right
    before the bytes of a register write or read are moved and released,
    again between two settling delays, right after: both calls always
    leave exactly these events.  The bus events of any run of
    [self_test], returned or still polling, and those of [main] after the
    board set-up, which moves no byte, are a sequence of such frames, one
    per transaction, and no byte is moved while chip select is released. *)
Theorem chip_select_brackets_every_transaction (miso : nat → Z) (cs : Z) :
  (∀ reg data w,
      trace (reg_write cs reg data w)
      = trace w ++ [Nop3; GpioPut cs false; Nop3;
                    SpiWrite [u8 reg; u8 data];
                    Nop3; GpioPut cs true; Nop3])
  ∧ (∀ reg buf w,
      trace (snd (reg_read miso cs reg buf w))
      = trace w ++ [Nop3; GpioPut cs false; Nop3;
                    SpiWrite [u8 (Z.lor 0x80 reg)];
                    SpiRead 0 [fst (reg_read miso cs reg buf w)];
                    Nop3; GpioPut cs true; Nop3])
  ∧ (∀ fuel sck mosi mi w,
      ∃ new ts,
        trace (world_of (self_test miso fuel cs sck mosi mi w)) = trace w ++ new
        ∧ bus_events new = frames cs ts
        ∧ cs_discipline cs false new = true)
  ∧ (∀ fuel,
      ∃ setup new ts,
        trace (world_of (main miso fuel boot)) = setup ++ new
        ∧ forallb (λ e, negb (is_transfer e)) setup = true
        ∧ bus_events new = frames cs_pin_of_main ts
        ∧ cs_discipline cs_pin_of_main false new = true).
Proof.
  split; [|split; [|split]].
  - intros reg data w. rewrite reg_write_eq. reflexivity.
  - intros reg buf w. rewrite reg_read_eq. reflexivity.
  - intros fuel sck mosi mi w.
    destruct (self_test_cases miso fuel cs sck mosi mi w)
      as [(n & new & _ & _ & _ & -> & Hbus)|(new & _ & -> & Hbus)];
      exists new; eexists; (split; [reflexivity|]);
      (split; [exact Hbus | exact (framed_disciplined _ _ _ Hbus)]).
  - intros fuel.
    destruct (main_trace miso fuel boot) as (out & -> & Hout).
    destruct (main_body_run miso fuel boot)
      as (setup & new & ts & _ & Hsetup & _ & _ & -> & Hbus & _).
    exists setup.
    exists (frame 17 (TxWrite CommandReg SoftReset) ++ [SleepMs 50]
            ++ frame 17 (TxRead (read_header VersionReg)
                           (u8 (miso (rx_count boot))))
            ++ [Printf "Version: %x\n\r" [u8 (miso (rx_count boot))]]
            ++ new ++ out).
    exists (TxWrite CommandReg SoftReset
            :: TxRead (read_header VersionReg) (u8 (miso (rx_count boot)))
            :: ts).
    assert (Hframes :
      bus_events
        (frame 17 (TxWrite CommandReg SoftReset) ++ [SleepMs 50]
         ++ frame 17 (TxRead (read_header VersionReg)
                        (u8 (miso (rx_count boot))))
         ++ [Printf "Version: %x\n\r" [u8 (miso (rx_count boot))]]
         ++ new ++ out)
      = frames 17 (TxWrite CommandReg SoftReset
                   :: TxRead (read_header VersionReg)
                        (u8 (miso (rx_count boot)))
                   :: ts)).
    { rewrite !bus_events_app, Hbus, Hout, !bus_events_frame, app_nil_r.
      cbn [frames]. rewrite <- ?app_assoc. reflexivity. }
    split; [cbn [trace boot app]; rewrite <- ?app_assoc; reflexivity|].
    split; [exact Hsetup|].
    split; [exact Hframes | exact (framed_disciplined _ _ _ Hframes)].
Qed.

(** ** The version register *)

(** C7. [main] reads the version register once, as the first byte it
    takes from the bus, and only prints it; [self_test] reads no version
    register.  On two devices that send the same bytes except for that
    first one, [main] obtains the same [test_result], which is the
    comparison of the bytes drained from the FIFO with [PROGMEM]. *)
Theorem self_test_ignores_version (m1 m2 : nat → Z) (fuel : nat) :
  (∀ k, k ≠ 0%nat → m1 k = m2 k) →
  value_of (main_body m1 fuel boot) = value_of (main_body m2 fuel boot)
  ∧ (∀ r, value_of (main_body m1 fuel boot) = Some r →
          ∃ polls,
            rx m1 (1 + polls) 64 = rx m2 (1 + polls) 64
            ∧ r = to_char (compare_result 64 0 (rx m1 (1 + polls) 64)))
  ∧ (∀ miso,
        ∃ setup new ts,
          trace (world_of (main_body miso fuel boot))
          = setup
            ++ frame 17 (TxWrite CommandReg SoftReset) ++ [SleepMs 50]
            ++ frame 17 (TxRead (read_header VersionReg) (u8 (miso 0%nat)))
            ++ [Printf "Version: %x\n\r" [u8 (miso 0%nat)]]
            ++ new
          ∧ forallb (λ e, negb (is_transfer e)) setup = true
          ∧ bus_events new = frames 17 ts
          ∧ forallb (λ t, negb (reads_register VersionReg t)) ts = true).
Proof.
  intros Hext.
  destruct (main_body_run m1 fuel boot)
    as (setup1 & new1 & ts1 & w1 & _ & Hrx1 & Hv1 & _).
  destruct (main_body_run m2 fuel boot)
    as (setup2 & new2 & ts2 & w2 & _ & Hrx2 & Hv2 & _).
  cbn [boot rx_count] in Hrx1, Hrx2.
  assert (Hfrom : ∀ k, (rx_count w1 ≤ k)%nat → m1 k = m2 k)
    by (intros k Hk; apply Hext; lia).
  split; [|split].
  - rewrite Hv1, Hv2. f_equal.
    apply self_test_value_ext; [congruence | exact Hfrom].
  - intros r Hr. rewrite Hv1 in Hr.
    destruct (self_test m1 fuel 17 18 19 16 w1) as [r1 w1'|w1'] eqn:Hrun;
      [|discriminate Hr].
    injection Hr as <-.
    destruct (self_test_returned m1 fuel 17 18 19 16 w1 r1 w1' Hrun)
      as (n & new & _ & _ & -> & _ & _).
    exists (S n). rewrite Hrx1. split; [|reflexivity].
    apply rx_ext. intros k Hk. apply Hext. lia.
  - intros miso.
    destruct (main_body_run miso fuel boot)
      as (setup & new & ts & _ & Hsetup & _ & _ & Htrace & Hbus & Hts).
    exists setup, new, ts. repeat split; assumption.
Qed.

Lemma self_test_ignores_version_witness :
  let m1 := versioned 0x92 (chip 1 64 PROGMEM) in
  let m2 := versioned 0x91 (chip 1 64 PROGMEM) in
  (∀ k, k ≠ 0%nat → m1 k = m2 k)
  ∧ m1 0%nat ≠ m2 0%nat
  ∧ value_of (main_body m1 2 boot) = Some 0
  ∧ value_of (main_body m1 2 boot) = value_of (main_body m2 2 boot).
Proof.
  intros m1 m2.
  assert (H : ∀ k, k ≠ 0%nat → m1 k = m2 k)
    by (intros [|k] Hk; [contradiction | reflexivity]).
  split; [exact H|]. split; [discriminate|].
  split; [vm_compute; reflexivity|].
  exact (proj1 (self_test_ignores_version m1 m2 2 H)).
Defined.

End MFRC522_Spec.

(** * Properties of the example *)

Module Example_Spec.
Import Example.

Lemma authorization_four (a b c d : Z) (rest : list Z) :
  authorization (a :: b :: c :: d :: rest)
  = if decide ([a; b; c; d] = tag1)
    then Some "Authentication Success\n\r"%string
    else Some "Authentication Failed\n\r"%string.
Proof.
  unfold authorization, tag1. cbn [memcmp].
  destruct (decide (a = 147)) as [->|Ha].
  2: { rewrite decide_False by lia. rewrite decide_False by congruence.
       reflexivity. }
  destruct (decide (b = 227)) as [->|Hb].
  2: { rewrite decide_False by lia. rewrite decide_False by congruence.
       reflexivity. }
  destruct (decide (c = 154)) as [->|Hc].
  2: { rewrite decide_False by lia. rewrite decide_False by congruence.
       reflexivity. }
  destruct (decide (d = 146)) as [->|Hd].
  2: { rewrite decide_False by lia. rewrite decide_False by congruence.
       reflexivity. }
  rewrite !decide_True by reflexivity. reflexivity.
Qed.

(** C8. The card is let in exactly when the four bytes of its UID are,
    position by position, those of [tag1]; a UID with a byte that differs
    from the one of [tag1] at its position is turned down. *)
Theorem authorization_iff (uidByte : list Z) :
  (4 ≤ length uidByte)%nat →
  (authorization uidByte = Some "Authentication Success\n\r"%string
   ↔ take 4 uidByte = tag1)
  ∧ (take 4 uidByte ≠ tag1 →
     authorization uidByte = Some "Authentication Failed\n\r"%string)
  ∧ (∀ k v, (k < 4)%nat → uidByte !! k = Some v → v ≠ tag1 !!! k →
            authorization uidByte = Some "Authentication Failed\n\r"%string).
Proof.
  intros Hlen.
  destruct uidByte as [|a [|b [|c [|d rest]]]]; cbn [length] in Hlen; try lia.
  rewrite authorization_four. cbn [take].
  destruct (decide ([a; b; c; d] = tag1)) as [Heq|Hne].
  - split; [split; intros; [exact Heq | reflexivity]|].
    split; [intros H; contradiction|].
    injection Heq as -> -> -> ->. intros k v Hk Hv Hdiff. exfalso.
    do 4 (destruct k as [|k];
          [injection Hv as <-; apply Hdiff; reflexivity|]).
    lia.
  - split; [split; intros H; [discriminate H | contradiction]|].
    split; reflexivity.
Qed.

Lemma authorization_iff_witness :
  (4 ≤ length [0x93; 0xE3; 0x9A; 0x93])%nat
  ∧ (authorization [0x93; 0xE3; 0x9A; 0x93]
     = Some "Authentication Success\n\r"%string
     ↔ take 4 [0x93; 0xE3; 0x9A; 0x93] = tag1)
  ∧ (take 4 [0x93; 0xE3; 0x9A; 0x93] ≠ tag1 →
     authorization [0x93; 0xE3; 0x9A; 0x93]
     = Some "Authentication Failed\n\r"%string)
  ∧ (∀ k v, (k < 4)%nat → [0x93; 0xE3; 0x9A; 0x93] !! k = Some v →
            v ≠ tag1 !!! k →
            authorization [0x93; 0xE3; 0x9A; 0x93]
            = Some "Authentication Failed\n\r"%string).
Proof.
  assert (H : (4 ≤ length [0x93; 0xE3; 0x9A; 0x93])%nat) by (cbn; lia).
  split; [exact H|].
  exact (authorization_iff [0x93; 0xE3; 0x9A; 0x93] H).
Defined.

End Example_Spec.

(** * Further properties of the driver *)

Module MFRC522_More.
Import MFRC522 Bus Devices MFRC522_Spec.

(** ** Console and delays *)










Section Run.
Variable miso : nat → Z.


End Run.









(** ** Pins *)

Lemma in_frames_drives_only cs e ts :
  In e (frames cs ts) → drives_only cs e = true.
Proof.
  induction ts as [|t ts IH]; [intros []|].
  cbn [frames]. intros H. apply in_app_or in H as [H|H]; [|exact (IH H)].
  destruct t; cbn [frame In] in H;
    repeat (destruct H as [<-|H]; [cbn; rewrite ?Z.eqb_refl; reflexivity|]);
    destruct H.
Qed.

Lemma framed_drives_only cs new ts :
  bus_events new = frames cs ts → forallb (drives_only cs) new = true.
Proof.
  intros Hbus. apply forallb_forall. intros e Hin.
  destruct (on_bus e) eqn:He.
  - apply (in_frames_drives_only cs e ts). rewrite <- Hbus.
    apply List.filter_In. split; assumption.
  - destruct e; try discriminate He; reflexivity.
Qed.

Lemma other_pin_writes_app cs t1 t2 :
  other_pin_writes cs (t1 ++ t2)
  = other_pin_writes cs t1 ++ other_pin_writes cs t2.
Proof. apply List.filter_app. Qed.

Lemma drives_only_no_other_pin cs t :
  forallb (drives_only cs) t = true → other_pin_writes cs t = [].
Proof.
  induction t as [|e t IH]; [reflexivity|].
  cbn [forallb]. intros H. apply andb_true_iff in H as [He Ht].
  cbn [other_pin_writes List.filter]. fold (other_pin_writes cs t).
  rewrite (IH Ht).
  destruct e; try reflexivity. cbn [drives_only] in He. rewrite He.
  reflexivity.
Qed.

Lemma silent_no_other_pin cs t : bus_events t = [] → other_pin_writes cs t = [].
Proof.
  induction t as [|e t IH]; [reflexivity|].
  destruct e; cbn [bus_events List.filter on_bus]; try discriminate;
    intros H; cbn [other_pin_writes List.filter]; exact (IH H).
Qed.

(** X7. Whatever the device answers and however long it polls,
    [self_test] moves bytes, waits and prints, and the only pin it drives
    is the chip select it was given: it drives no other pin and sets up
    neither a pin nor the SPI block. *)
Theorem self_test_drives_only_chip_select (miso : nat → Z) (fuel : nat)
    (cs sck mosi mi : Z) (w : world) :
  ∃ new,
    trace (world_of (self_test miso fuel cs sck mosi mi w)) = trace w ++ new
    ∧ forallb (drives_only cs) new = true
    ∧ other_pin_writes cs new = [].
Proof.
  destruct (self_test_cases miso fuel cs sck mosi mi w)
    as [(n & new & _ & _ & _ & -> & Hbus)|(new & _ & -> & Hbus)];
    exists new; (split; [reflexivity|]);
    pose proof (framed_drives_only cs new _ Hbus) as Hok;
    (split; [exact Hok | exact (drives_only_no_other_pin cs new Hok)]).
Qed.

Section Main.
Variable miso : nat → Z.

(** [main_body_run] with the set-up written out. *)
Lemma main_body_trace fuel :
  ∃ new ts,
    trace (world_of (main_body miso fuel boot))
    = board_setup
      ++ frame 17 (TxWrite CommandReg SoftReset) ++ [SleepMs 50]
      ++ frame 17 (TxRead (read_header VersionReg) (u8 (miso 0%nat)))
      ++ [Printf "Version: %x\n\r" [u8 (miso 0%nat)]]
      ++ new
    ∧ bus_events new = frames 17 ts.
Proof.
  unfold main_body, boot. cbv zeta.
  unfold sleep_ms, printf, gpio_put. rewrite !emit_eq.
  rewrite reg_write_eq. cbn [trace rx_count]. rewrite emit_eq.
  rewrite reg_read_eq. cbn [trace rx_count]. rewrite emit_eq.
  rewrite <- !app_assoc.
  match goal with
  | |- context [self_test miso fuel 17 18 19 16 ?W] => set (w1 := W)
  end.
  destruct (self_test_cases miso fuel 17 18 19 16 w1)
    as [(n & new & _ & _ & _ & Hr & Hbus)|(new & _ & Hs & Hbus)].
  - rewrite Hr. cbn [trace rx_count world_of]. rewrite emit_eq.
    cbn [trace rx_count world_of].
    eexists (new ++ [Printf "Test Result: %d\n\r" _]), _.
    split; [subst w1; cbn [trace]; rewrite <- !app_assoc; reflexivity|].
    rewrite bus_events_app, Hbus. apply app_nil_r.
  - rewrite Hs. cbn [trace rx_count world_of].
    eexists new, _.
    split; [subst w1; cbn [trace]; rewrite <- !app_assoc; reflexivity|].
    exact Hbus.
Qed.

Lemma idle_exact fuel : ∀ w,
  idle fuel w
  = Spinning (World (trace w ++ replicate fuel (SleepMs 1000)) (rx_count w)).
Proof.
  induction fuel as [|fuel IH]; intros w; cbn [idle replicate].
  - rewrite app_nil_r. destruct w; reflexivity.
  - rewrite IH. unfold sleep_ms, emit. cbn [trace rx_count].
    rewrite <- app_assoc. reflexivity.
Qed.

End Main.

(** X8. In a whole run of [main], on any device and for any length of
    the run, the only levels driven on pins other than chip select are
    the reset pulse, low and then high: the LED pin is made an output but
    never driven, and the reset pin is not touched again. *)
Theorem main_drives_reset_once (miso : nat → Z) (fuel : nat) :
  other_pin_writes cs_pin_of_main (trace (world_of (main miso fuel boot)))
  = [GpioPut RESET_PIN false; GpioPut RESET_PIN true]
  ∧ ∀ v, ¬ In (GpioPut LED_PIN v) (trace (world_of (main miso fuel boot))).
Proof.
  assert (Hpins :
    other_pin_writes cs_pin_of_main (trace (world_of (main miso fuel boot)))
    = [GpioPut RESET_PIN false; GpioPut RESET_PIN true]).
  { unfold cs_pin_of_main.
    destruct (main_trace miso fuel boot) as (out & -> & Hout).
    destruct (main_body_trace miso fuel) as (new & ts & -> & Hbus).
    rewrite !other_pin_writes_app.
    rewrite (silent_no_other_pin _ out Hout).
    rewrite (drives_only_no_other_pin _ new (framed_drives_only _ _ _ Hbus)).
    reflexivity. }
  split; [exact Hpins|].
  intros v Hin.
  assert (Hin' : In (GpioPut LED_PIN v)
                    (other_pin_writes cs_pin_of_main
                       (trace (world_of (main miso fuel boot)))))
    by (apply List.filter_In; split; [exact Hin | reflexivity]).
  rewrite Hpins in Hin'.
  destruct Hin' as [H|[H|[]]]; discriminate H.
Qed.

(** X9. [main] never returns.  Once [self_test] has returned and its
    result is printed, [main] does nothing but sleep one second at a
    time: it makes no further bus access and prints nothing more. *)
Theorem main_never_returns (miso : nat → Z) (fuel : nat) (w : world) :
  value_of (main miso fuel w) = None
  ∧ ∀ r w1, main_body miso fuel w = Returned r w1 →
            main miso fuel w
            = Spinning (World (trace w1 ++ replicate fuel (SleepMs 1000))
                              (rx_count w1)).
Proof.
  unfold main. destruct (main_body miso fuel w) as [r w1|w1].
  - rewrite idle_exact. split; [reflexivity|].
    intros r' w1' H. injection H as <- <-. reflexivity.
  - split; [reflexivity|]. intros r' w1' H. discriminate H.
Qed.

Lemma main_never_returns_witness :
  let miso := versioned 0x92 (chip 0 64 PROGMEM) in
  let body := main_body miso 3 boot in
  body = Returned 0 (world_of body)
  ∧ main miso 3 boot
    = Spinning (World (trace (world_of body) ++ replicate 3 (SleepMs 1000))
                      (rx_count (world_of body))).
Proof.
  intros miso body.
  assert (H : body = Returned 0 (world_of body)) by (vm_compute; reflexivity).
  split; [exact H|].
  exact (proj2 (main_never_returns miso 3 boot) 0 (world_of body) H).
Defined.

(** ** The iteration budget *)




(** ** Register bytes *)

Lemma shifted_double r : 0 ≤ r ≤ 63 → shifted r = 2 * r.
Proof.
  revert r. apply address_cases. intros k Hk.
  do 64 (destruct k as [|k]; [reflexivity|]). lia.
Qed.

(** X1. [reg_write] neither shifts nor masks: the register byte it is
    given is the first byte it sends.  A call with a logical address in
    1..63 instead of the register constant [address << 1] therefore sends
    another header than the call with the constant. *)
Theorem reg_write_sends_register_as_given (cs reg d : Z) (w : world) :
  0 ≤ reg ≤ 255 → 0 ≤ d ≤ 255 →
  reg_write cs reg d w
  = World (trace w ++ [Nop3; GpioPut cs false; Nop3;
                       SpiWrite [reg; d];
                       Nop3; GpioPut cs true; Nop3])
          (rx_count w)
  ∧ (1 ≤ reg ≤ 63 → reg_write cs reg d w ≠ reg_write cs (shifted reg) d w).
Proof.
  intros Hreg Hd. rewrite !reg_write_eq. cbn [frame].
  rewrite (u8_small reg), (u8_small d) by lia.
  split; [reflexivity|].
  intros Hr. rewrite (shifted_double reg), (u8_small (2 * reg)) by lia.
  intros Heq. injection Heq as Heq. apply app_inv_head in Heq.
  injection Heq as Heq. lia.
Qed.

Lemma reg_write_sends_register_as_given_witness :
  (0 ≤ 0x36 ≤ 255 ∧ 0 ≤ 0x09 ≤ 255 ∧ 1 ≤ 0x36 ≤ 63)
  ∧ reg_write 17 0x36 0x09 boot
    = World [Nop3; GpioPut 17 false; Nop3;
             SpiWrite [0x36; 0x09];
             Nop3; GpioPut 17 true; Nop3] 0
  ∧ reg_write 17 0x36 0x09 boot ≠ reg_write 17 AutoTestReg 0x09 boot.
Proof.
  assert (H1 : 0 ≤ 0x36 ≤ 255) by lia.
  assert (H2 : 0 ≤ 0x09 ≤ 255) by lia.
  assert (H3 : 1 ≤ 0x36 ≤ 63) by lia.
  split; [auto|].
  pose proof (reg_write_sends_register_as_given 17 0x36 0x09 boot H1 H2)
    as [Heq Hne].
  split; [exact Heq | exact (Hne H3)].
Defined.

(** X2. [reg_read] sets the read flag whether or not the register byte
    already carries it, so both calls are the same; what the caller's
    buffer held before the call has no influence; the byte delivered lies
    in 0..255 and one byte of the device's answer is used up. *)
Theorem reg_read_flag_and_buffer (miso : nat → Z) (cs reg buf buf' : Z)
    (w : world) :
  reg_read miso cs (Z.lor 0x80 reg) buf w = reg_read miso cs reg buf w
  ∧ reg_read miso cs reg buf' w = reg_read miso cs reg buf w
  ∧ 0 ≤ fst (reg_read miso cs reg buf w) ≤ 255
  ∧ rx_count (snd (reg_read miso cs reg buf w)) = S (rx_count w).
Proof.
  rewrite !reg_read_eq. cbn [fst snd rx_count].
  rewrite Z.lor_assoc, Z.lor_diag.
  repeat split; unfold u8;
    pose proof (Z.mod_pos_bound (miso (rx_count w)) 256); lia.
Qed.

(** X3. For logical addresses in 0..63 the two header bytes can be
    decoded: the write header shifted right by one, and the read header
    without its flag shifted right by one, give back the address.
    Different addresses have different headers, and no read header is a
    write header. *)
Theorem register_headers_decode (r1 r2 : Z) :
  0 ≤ r1 ≤ 63 → 0 ≤ r2 ≤ 63 →
  Z.shiftr (u8 (Z.lor 0x00 (shifted r1))) 1 = r1
  ∧ Z.shiftr (Z.land (u8 (Z.lor 0x80 (shifted r1))) 0x7E) 1 = r1
  ∧ (u8 (Z.lor 0x00 (shifted r1)) = u8 (Z.lor 0x00 (shifted r2)) → r1 = r2)
  ∧ (u8 (Z.lor 0x80 (shifted r1)) = u8 (Z.lor 0x80 (shifted r2)) → r1 = r2)
  ∧ u8 (Z.lor 0x80 (shifted r1)) ≠ u8 (Z.lor 0x00 (shifted r2)).
Proof.
  intros H1 H2.
  assert (Hw : ∀ r, 0 ≤ r ≤ 63 →
            u8 (Z.lor 0x00 (shifted r)) = 2 * r
            ∧ u8 (Z.lor 0x80 (shifted r)) = 128 + 2 * r
            ∧ Z.shiftr (u8 (Z.lor 0x00 (shifted r))) 1 = r
            ∧ Z.shiftr (Z.land (u8 (Z.lor 0x80 (shifted r))) 0x7E) 1 = r).
  { apply (address_cases (λ r,
             u8 (Z.lor 0x00 (shifted r)) = 2 * r
             ∧ u8 (Z.lor 0x80 (shifted r)) = 128 + 2 * r
             ∧ Z.shiftr (u8 (Z.lor 0x00 (shifted r))) 1 = r
             ∧ Z.shiftr (Z.land (u8 (Z.lor 0x80 (shifted r))) 0x7E) 1 = r)).
    intros k Hk. do 64 (destruct k as [|k]; [vm_compute; auto|]). lia. }
  destruct (Hw r1 H1) as (Ha1 & Hb1 & Hc1 & Hd1).
  destruct (Hw r2 H2) as (Ha2 & Hb2 & _ & _).
  split; [exact Hc1|]. split; [exact Hd1|].
  rewrite Ha1, Ha2, Hb1, Hb2. repeat split; lia.
Qed.

Lemma register_headers_decode_witness :
  (0 ≤ 0x0A ≤ 63 ∧ 0 ≤ 0x09 ≤ 63)
  ∧ Z.shiftr (u8 (Z.lor 0x00 FIFOLevelReg)) 1 = 0x0A
  ∧ Z.shiftr (Z.land (u8 (Z.lor 0x80 FIFOLevelReg)) 0x7E) 1 = 0x0A
  ∧ (u8 (Z.lor 0x00 FIFOLevelReg) = u8 (Z.lor 0x00 FIFODataReg)
     → 0x0A = 0x09)
  ∧ (u8 (Z.lor 0x80 FIFOLevelReg) = u8 (Z.lor 0x80 FIFODataReg)
     → 0x0A = 0x09)
  ∧ u8 (Z.lor 0x80 FIFOLevelReg) ≠ u8 (Z.lor 0x00 FIFODataReg).
Proof.
  assert (H1 : 0 ≤ 0x0A ≤ 63) by lia.
  assert (H2 : 0 ≤ 0x09 ≤ 63) by lia.
  split; [auto|].
  exact (register_headers_decode 0x0A 0x09 H1 H2).
Defined.

(** ** The drain loop *)

(** X11. The drain loop fills every slot of the result array: whatever
    the 64 slots held before, slot [i] afterwards holds the byte of the
    [i]-th read of the FIFO data register, a value in 0..255; the loop
    makes 64 register reads and nothing else. *)
Theorem drain_overwrites_every_slot (miso : nat → Z) (cs : Z)
    (init : list Z) (w : world) :
  length init = 64%nat →
  for_loop 64 0 (read_result_step miso cs) (init, w)
  = (rx miso (rx_count w) 64,
     World (trace w
            ++ frames cs (TxRead (read_header FIFODataReg)
                            <$> rx miso (rx_count w) 64))
           (rx_count w + 64))
  ∧ (∀ i, (i < 64)%nat →
          rx miso (rx_count w) 64 !!! i = u8 (miso (rx_count w + i)%nat)
          ∧ 0 ≤ rx miso (rx_count w) 64 !!! i ≤ 255).
Proof.
  intros Hlen. split.
  - rewrite read_loop by lia.
    rewrite <- Hlen at 2. cbn [take Nat.add]. rewrite drop_all, app_nil_r.
    reflexivity.
  - intros i Hi.
    assert (Hi' : rx miso (rx_count w) 64 !!! i = u8 (miso (rx_count w + i)%nat)).
    { apply list_lookup_total_correct. unfold rx.
      rewrite list_lookup_fmap, lookup_seq_lt by exact Hi. reflexivity. }
    split; [exact Hi'|]. rewrite Hi'. unfold u8.
    pose proof (Z.mod_pos_bound (miso (rx_count w + i)%nat) 256). lia.
Qed.

Lemma drain_overwrites_every_slot_witness :
  let miso := chip 0 64 PROGMEM in
  let init := replicate 64 0xAA in
  length init = 64%nat
  ∧ for_loop 64 0 (read_result_step miso 17) (init, World [] 1)
    = (rx miso 1 64,
       World ([] ++ frames 17 (TxRead (read_header FIFODataReg)
                                 <$> rx miso 1 64))
             (1 + 64))
  ∧ rx miso 1 64 = PROGMEM.
Proof.
  intros miso init.
  assert (H : length init = 64%nat) by reflexivity.
  split; [exact H|].
  split; [|reflexivity].
  exact (proj1 (drain_overwrites_every_slot miso 17 init (World [] 1) H)).
Defined.

End MFRC522_More.

